(** * Program-request lifecycle backend: a shallow embedding

    The development follows the two Python sources of the repository:
    - [schemas.py]: the Pydantic models (field constraints, literals, defaults);
    - [main.py]: the FastAPI handlers built on a shared database handle [db].

    Payloads are records, stored documents are finite maps from field names
    to values (as the handlers and the document store see them), the shared
    handle is threaded through a small state-and-exception monad in which a
    raised exception keeps the writes made before it, as in Python. *)

From Stdlib Require Import ZArith NArith String Ascii List Floats.
From stdpp Require Import base option gmap strings list fin_maps.

Local Open Scope string_scope.
Local Open Scope N_scope.

(** ** Values and documents *)

#[local] Set Warnings "-register-all".

(** The values a stored document or a JSON response holds.  A [float] is
    Python's binary64, a [datetime] is kept as a count of microseconds, an
    [ObjectId] as the number its twelve bytes spell. *)
Inductive Value : Type :=
| VNone
| VBool (b : bool)
| VInt (z : Z)
| VFloat (f : float)
| VStr (s : string)
| VDatetime (t : Z)
| VObjectId (o : N)
| VList (l : list Value)
| VDict (d : gmap string Value).

Abbreviation Document := (gmap string Value).

Definition of_optional {A : Type} (inj : A -> Value) (o : option A) : Value :=
  match o with
  | Some a => inj a
  | None => VNone
  end.

(** ** [bson.ObjectId] *)

Definition hex_digit (c : ascii) : option N :=
  let n := N_of_ascii c in
  if (48 <=? n) && (n <=? 57) then Some (n - 48)
  else if (97 <=? n) && (n <=? 102) then Some (n - 87)
  else if (65 <=? n) && (n <=? 70) then Some (n - 55)
  else None.

Fixpoint hex_value (acc : N) (s : string) : option N :=
  match s with
  | EmptyString => Some acc
  | String c s' =>
      match hex_digit c with
      | Some v => hex_value (16 * acc + v) s'
      | None => None
      end
  end.

(** [ObjectId(s)] for a [str]: exactly 24 hexadecimal digits, anything else
    raises [InvalidId] (here [None]). *)
Definition ObjectId (s : string) : option N :=
  if Nat.eqb (String.length s) 24 then hex_value 0 s else None.

Definition hex_char (v : N) : ascii :=
  if v <? 10 then ascii_of_N (48 + v) else ascii_of_N (87 + v).

Fixpoint hex_string (digits : nat) (n : N) (acc : string) : string :=
  match digits with
  | O => acc
  | S k => hex_string k (n / 16) (String (hex_char (n mod 16)) acc)
  end.

(** [str(oid)]: the 24 lower-case hexadecimal digits of the identifier. *)
Definition str_ObjectId (o : N) : string := hex_string 24 o "".

(** ** The document store *)

(** One insertion-ordered sequence of documents per collection name, and the
    next identifier the store will hand out. *)
Record Database : Type := mkDatabase {
  collections : gmap string (list Document);
  next_oid : N
}.

Definition empty_database : Database :=
  {| collections := ∅; next_oid := 0 |}.

(** [db[name]]: a collection that was never written to is empty. *)
Definition collection (d : Database) (name : string) : list Document :=
  default [] (collections d !! name).

(** Equality match of one query value against a stored field.  The handlers
    only ever query with strings and object identifiers. *)
Definition value_matches (stored : option Value) (wanted : Value) : bool :=
  match stored, wanted with
  | Some (VStr a), VStr b => String.eqb a b
  | Some (VObjectId a), VObjectId b => N.eqb a b
  | _, _ => false
  end.

(** A query document is an exact-match conjunction over its fields. *)
Definition matches (q doc : Document) : bool :=
  bool_decide (map_Forall (fun k v => value_matches (doc !! k) v = true) q).

(** The store's own step of an insert: the document, as encoded, goes to the
    end of the collection under the next identity. *)
Definition append_document (name : string) (doc : Document) (d : Database)
  : N * Database :=
  let oid := next_oid d in
  (oid,
   {| collections :=
        <[name := (collection d name ++ [<["_id" := VObjectId oid]> doc])%list]>
          (collections d);
      next_oid := N.succ oid |}).

(** BSON has no integer wider than eight bytes. *)
Definition int64 (z : Z) : bool := ((- 2 ^ 63 <=? z) && (z <? 2 ^ 63))%Z.

(** Whether a value can be encoded: every integer in it, at any depth, fits
    eight bytes; otherwise the encoder raises [OverflowError]. *)
Fixpoint bson_fits (v : Value) : bool :=
  match v with
  | VInt z => int64 z
  | VList l => forallb bson_fits l
  | VDict m => map_fold (fun _ v' acc => bson_fits v' && acc) true m
  | _ => true
  end.

(** What an encoded value reads back as: a datetime is kept to the
    millisecond (the microseconds below are dropped), everything else is
    kept as it is. *)
Fixpoint bson_stored (v : Value) : Value :=
  match v with
  | VDatetime t => VDatetime (1000 * (t / 1000))
  | VList l => VList (List.map bson_stored l)
  | VDict m => VDict (bson_stored <$> m)
  | _ => v
  end.

Definition bson_encode (doc : Document) : option Document :=
  if bson_fits (VDict doc) then Some (bson_stored <$> doc) else None.

(** [db[name].insert_one(doc)]: the document is encoded, which may raise
    (here [None], and nothing is written), and then stored. *)
Definition insert_one (name : string) (doc : Document) (d : Database)
  : option (N * Database) :=
  stored ← bson_encode doc;
  Some (append_document name stored d).

Definition find (name : string) (q : Document) (d : Database) : list Document :=
  List.filter (matches q) (collection d name).

(** [$set] on the first document the query selects; no match, no change. *)
Fixpoint set_first (q patch : Document) (l : list Document) : list Document :=
  match l with
  | [] => []
  | doc :: rest =>
      if matches q doc then (patch ∪ doc) :: rest
      else doc :: set_first q patch rest
  end.

Definition update_one (name : string) (q patch : Document) (d : Database)
  : Database :=
  match collections d !! name with
  | Some l =>
      {| collections := <[name := set_first q patch l]> (collections d);
         next_oid := next_oid d |}
  | None => d
  end.

(** [find_one({"_id": oid})]: how a record is read back by identity. *)
Definition find_by_id (name : string) (oid : N) (d : Database)
  : option Document :=
  head (find name {["_id" := VObjectId oid]} d).

(** ** Handlers as computations over the shared handle *)

Inductive Exn : Type :=
| HTTPException (status_code : Z) (detail : string)
| RequestValidationError
| InvalidId
| OverflowError
| DatabaseNotAvailable.

(** What the client sees: FastAPI answers 422 to a payload the model
    rejects, and 500 to any exception a handler lets escape. *)
Definition status_code_of (e : Exn) : Z :=
  match e with
  | HTTPException c _ => c
  | RequestValidationError => 422
  | InvalidId => 500
  | OverflowError => 500
  | DatabaseNotAvailable => 500
  end%Z.

(** The global [db] is [None] when the store is not configured. *)
Definition App (A : Type) : Type :=
  option Database -> (Exn + A) * option Database.

#[export] Instance App_ret : MRet App := fun A a h => (inr a, h).

#[export] Instance App_bind : MBind App := fun A B k m h =>
  match m h with
  | (inr a, h') => k a h'
  | (inl e, h') => (inl e, h')
  end.

Definition raise {A : Type} (e : Exn) : App A := fun h => (inl e, h).

Definition get_db : App (option Database) := fun h => (inr h, h).

Definition of_option {A : Type} (e : Exn) (o : option A) : App A :=
  match o with
  | Some a => mret a
  | None => raise e
  end.

(** ** [schemas.py]: the Pydantic models

    A request body is taken after type coercion: each field already has the
    type its annotation names, an [Optional] field left out is [None], and a
    [Literal] field is still any string.  [validate] is what is left of model
    validation: literals, numeric bounds and defaults. *)

(** [Literal[...]]: the string must be one of the listed ones. *)
Definition literal (allowed : list string) (s : string) : option string :=
  if existsb (String.eqb s) allowed then Some s else None.

(** A field with a default: left out, it takes the default. *)
Definition literal_default (allowed : list string) (dflt : string)
  (o : option string) : option string :=
  match o with
  | None => Some dflt
  | Some s => literal allowed s
  end.

Definition VStrs (l : list string) : Value := VList (VStr <$> l).

Module BudgetItem.

Record t : Type := mk { name : string; amount : float }.

(** [amount: float = Field(ge=0)] *)
Definition validate (b : t) : option t :=
  if PrimFloat.leb 0%float (amount b) then Some b else None.

Definition model_dump (b : t) : Value :=
  VDict (<["name" := VStr (name b)]> (<["amount" := VFloat (amount b)]> ∅)).

End BudgetItem.

Module ProgramRequest.

Definition program_types : list string :=
  ["student_activity"; "community_service"; "volunteering"].

Definition statuses : list string :=
  ["submitted"; "under_review"; "approved"; "rejected"].

(** The model's fields; [St] is [option string] for a body, where [status]
    may be left out, and [string] once validated. *)
Record model (St : Type) : Type := mk {
  branch_code : string;
  program_title : string;
  program_type : string;
  description : option string;
  proposed_date : option Z;
  location : option string;
  budget : list BudgetItem.t;
  requested_by : option string;
  status : St
}.

Arguments mk {St}.
Arguments branch_code {St}.
Arguments program_title {St}.
Arguments program_type {St}.
Arguments description {St}.
Arguments proposed_date {St}.
Arguments location {St}.
Arguments budget {St}.
Arguments requested_by {St}.
Arguments status {St}.

Definition body : Type := model (option string).
Definition t : Type := model string.

Definition validate (b : body) : option t :=
  ty ← literal program_types (program_type b);
  items ← mapM BudgetItem.validate (budget b);
  st ← literal_default statuses "submitted" (status b);
  Some {| branch_code := branch_code b;
          program_title := program_title b;
          program_type := ty;
          description := description b;
          proposed_date := proposed_date b;
          location := location b;
          budget := items;
          requested_by := requested_by b;
          status := st |}.

Definition model_dump (p : t) : Document :=
  <["branch_code" := VStr (branch_code p)]>
  (<["program_title" := VStr (program_title p)]>
  (<["program_type" := VStr (program_type p)]>
  (<["description" := of_optional VStr (description p)]>
  (<["proposed_date" := of_optional VDatetime (proposed_date p)]>
  (<["location" := of_optional VStr (location p)]>
  (<["budget" := VList (BudgetItem.model_dump <$> budget p)]>
  (<["requested_by" := of_optional VStr (requested_by p)]>
  (<["status" := VStr (status p)]> ∅)))))))).

End ProgramRequest.

Module Approval.

Definition decisions : list string := ["approved"; "rejected"].

Record t : Type := mk {
  request_id : string;
  approved_by : string;
  decision : string;
  notes : option string
}.

Definition validate (b : t) : option t :=
  dec ← literal decisions (decision b);
  Some {| request_id := request_id b;
          approved_by := approved_by b;
          decision := dec;
          notes := notes b |}.

End Approval.

Module Event.

Definition statuses : list string :=
  ["scheduled"; "in_progress"; "completed"; "cancelled"].

Record model (St : Type) : Type := mk {
  request_id : option string;
  title : string;
  branch_code : string;
  start_time : Z;
  end_time : Z;
  location : option string;
  resources : list string;
  status : St
}.

Arguments mk {St}.
Arguments request_id {St}.
Arguments title {St}.
Arguments branch_code {St}.
Arguments start_time {St}.
Arguments end_time {St}.
Arguments location {St}.
Arguments resources {St}.
Arguments status {St}.

Definition body : Type := model (option string).
Definition t : Type := model string.

Definition validate (b : body) : option t :=
  st ← literal_default statuses "scheduled" (status b);
  Some {| request_id := request_id b;
          title := title b;
          branch_code := branch_code b;
          start_time := start_time b;
          end_time := end_time b;
          location := location b;
          resources := resources b;
          status := st |}.

Definition model_dump (e : t) : Document :=
  <["request_id" := of_optional VStr (request_id e)]>
  (<["title" := VStr (title e)]>
  (<["branch_code" := VStr (branch_code e)]>
  (<["start_time" := VDatetime (start_time e)]>
  (<["end_time" := VDatetime (end_time e)]>
  (<["location" := of_optional VStr (location e)]>
  (<["resources" := VStrs (resources e)]>
  (<["status" := VStr (status e)]> ∅))))))).

End Event.

Module Report.

Record t : Type := mk {
  request_id : option string;
  event_id : option string;
  submitted_by : option string;
  summary : string;
  attendees_count : option Z;
  photos : list string
}.

(** [attendees_count: Optional[int] = Field(default=None, ge=0)] *)
Definition validate (b : t) : option t :=
  match attendees_count b with
  | Some n => if (0 <=? n)%Z then Some b else None
  | None => Some b
  end.

Definition model_dump (r : t) : Document :=
  <["request_id" := of_optional VStr (request_id r)]>
  (<["event_id" := of_optional VStr (event_id r)]>
  (<["submitted_by" := of_optional VStr (submitted_by r)]>
  (<["summary" := VStr (summary r)]>
  (<["attendees_count" := of_optional VInt (attendees_count r)]>
  (<["photos" := VStrs (photos r)]> ∅))))).

End Report.

Module Evaluation.

Record t : Type := mk {
  request_id : option string;
  event_id : option string;
  score : float;
  methodology : option string;
  comments : option string
}.

(** [score: float = Field(ge=0, le=100)] *)
Definition validate (b : t) : option t :=
  if PrimFloat.leb 0%float (score b) && PrimFloat.leb (score b) 100%float
  then Some b else None.

Definition model_dump (e : t) : Document :=
  <["request_id" := of_optional VStr (request_id e)]>
  (<["event_id" := of_optional VStr (event_id e)]>
  (<["score" := VFloat (score e)]>
  (<["methodology" := of_optional VStr (methodology e)]>
  (<["comments" := of_optional VStr (comments e)]> ∅)))).

End Evaluation.

(** ** The [database] module *)

(** Modelled from the spec: [database.create_document] is imported by
    [main.py] and is not among the sources.  The spec gives the store's
    contract as [create(collection, record) -> identity]: the record is
    appended to the named collection under a store-generated identity, which
    is returned as a string.  Without a configured store the call raises, and
    so it does, with nothing written, when the record cannot be encoded. *)
Definition create_document (collection_name : string) (data : Document)
  : App string :=
  fun h =>
    match h with
    | Some d =>
        match insert_one collection_name data d with
        | Some (oid, d') => (inr (str_ObjectId oid), Some d')
        | None => (inl OverflowError, Some d)
        end
    | None => (inl DatabaseNotAvailable, None)
    end.

(** Modelled from the spec: [database.get_documents] is imported by [main.py]
    and is not among the sources.  The spec gives
    [find(collection, filter) -> sequence of record], an exact-match
    conjunction returned in store order (insertion order). *)
Definition get_documents (collection_name : string) (filter_dict : Document)
  : App (list Document) :=
  fun h =>
    match h with
    | Some d => (inr (find collection_name filter_dict d), h)
    | None => (inl DatabaseNotAvailable, None)
    end.

(** [db[name].update_one(q, {"$set": patch})] on the configured store. *)
Definition db_update_one (name : string) (q patch : Document) : App unit :=
  fun h =>
    match h with
    | Some d => (inr tt, Some (update_one name q patch d))
    | None => (inl DatabaseNotAvailable, None)
    end.

(** ** [main.py] *)

Definition lower_ascii (c : ascii) : ascii :=
  let n := N_of_ascii c in
  if (65 <=? n) && (n <=? 90) then ascii_of_N (n + 32) else c.

Fixpoint lower (s : string) : string :=
  match s with
  | EmptyString => EmptyString
  | String c s' => String (lower_ascii c) (lower s')
  end.

Definition coll (name : string) : string := lower name.

(** Python's truth value of an [Optional[str]] parameter: [None] and the
    empty string are false. *)
Definition truthy (o : option string) : bool :=
  match o with
  | Some s => negb (String.eqb s "")
  | None => false
  end.

(** [if param: q[key] = param] *)
Definition set_if (key : string) (param : option string) (q : Document)
  : Document :=
  match param with
  | Some s => if truthy param then <[key := VStr s]> q else q
  | None => q
  end.

(** FastAPI parses and validates the body before the handler runs; a body
    the model rejects never reaches it. *)
Definition endpoint {B P R : Type} (validate : B -> option P)
  (handler : P -> App R) (b : B) : App R :=
  match validate b with
  | Some payload => handler payload
  | None => raise RequestValidationError
  end.

Definition submit_program_request (payload : ProgramRequest.t) : App Document :=
  req_id ← create_document (coll "programrequest")
             (ProgramRequest.model_dump payload);
  mret {[ "id" := VStr req_id;
          "status" := VStr (ProgramRequest.status payload) ]}.

Definition list_program_requests (status branch_code : option string)
  : App (list Document) :=
  let q : Document := ∅ in
  let q := set_if "status" status q in
  let q := set_if "branch_code" branch_code q in
  get_documents (coll "programrequest") q.

(** The dict [approvals] that [approve_request] builds from its payload. *)
Definition approvals (payload : Approval.t) : Document :=
  {[ "request_id" := VStr (Approval.request_id payload);
     "approved_by" := VStr (Approval.approved_by payload);
     "decision" := VStr (Approval.decision payload);
     "notes" := of_optional VStr (Approval.notes payload) ]}.

(** The status [approve_request] writes:
    ["approved" if payload.decision == "approved" else "rejected"]. *)
Definition target_status (decision : string) : string :=
  if String.eqb decision "approved" then "approved" else "rejected".

Definition approve_request (payload : Approval.t) : App Document :=
  db ← get_db;
  match db with
  | None => raise (HTTPException 500 "Database not configured")
  | Some _ =>
      approval_id ← create_document (coll "approval") (approvals payload);
      oid ← of_option InvalidId (ObjectId (Approval.request_id payload));
      db_update_one (coll "programrequest")
        {[ "_id" := VObjectId oid ]}
        {[ "status" := VStr (target_status (Approval.decision payload)) ]};;
      mret {[ "id" := VStr approval_id ]}
  end.

Definition list_resources (branch_code type : option string)
  : App (list Document) :=
  let q : Document := ∅ in
  let q := set_if "branch_code" branch_code q in
  let q := set_if "type" type q in
  get_documents (coll "resource") q.

Definition create_event (payload : Event.t) : App Document :=
  event_id ← create_document (coll "event") (Event.model_dump payload);
  mret {[ "id" := VStr event_id ]}.

Definition list_events (branch_code status : option string)
  : App (list Document) :=
  let q : Document := ∅ in
  let q := set_if "branch_code" branch_code q in
  let q := set_if "status" status q in
  get_documents (coll "event") q.

Definition submit_report (payload : Report.t) : App Document :=
  rep_id ← create_document (coll "report") (Report.model_dump payload);
  mret {[ "id" := VStr rep_id ]}.

Definition submit_evaluation (payload : Evaluation.t) : App Document :=
  ev_id ← create_document (coll "evaluation") (Evaluation.model_dump payload);
  mret {[ "id" := VStr ev_id ]}.

Definition list_notifications (user_email branch_code : option string)
  : App (list Document) :=
  let q : Document := ∅ in
  let q := set_if "user_email" user_email q in
  let q := set_if "branch_code" branch_code q in
  get_documents (coll "notification") q.

(** The routes: body validation in front of each handler. *)
Definition POST_program_requests : ProgramRequest.body -> App Document :=
  endpoint ProgramRequest.validate submit_program_request.

Definition POST_approvals : Approval.t -> App Document :=
  endpoint Approval.validate approve_request.

Definition POST_events : Event.body -> App Document :=
  endpoint Event.validate create_event.

Definition POST_reports : Report.t -> App Document :=
  endpoint Report.validate submit_report.

Definition POST_evaluations : Evaluation.t -> App Document :=
  endpoint Evaluation.validate submit_evaluation.

(** ** More of [schemas.py] and [main.py]: roles, resources, single-filter lists *)

Module Role.

Definition names : list string :=
  ["admin"; "hq_manager"; "branch_manager"; "coordinator"; "reviewer";
   "finance"; "it"; "quality"; "viewer"].

Record t : Type := mk { name : string; description : option string }.

Definition validate (b : t) : option t :=
  n ← literal names (name b);
  Some {| name := n; description := description b |}.

Definition model_dump (r : t) : Document :=
  <["name" := VStr (name r)]>
  (<["description" := of_optional VStr (description r)]> ∅).

End Role.

Module Resource.

Definition types : list string :=
  ["venue"; "equipment"; "it_support"; "media"; "transport"].

Definition availability_statuses : list string :=
  ["available"; "reserved"; "maintenance"].

(** [St] as for [ProgramRequest]: [availability_status] may be left out of a
    body and then defaults to ["available"]. *)
Record model (St : Type) : Type := mk {
  name : string;
  type : string;
  branch_code : option string;
  capacity : option Z;
  availability_status : St
}.

Arguments mk {St}.
Arguments name {St}.
Arguments type {St}.
Arguments branch_code {St}.
Arguments capacity {St}.
Arguments availability_status {St}.

Definition body : Type := model (option string).
Definition t : Type := model string.

Definition validate (b : body) : option t :=
  ty ← literal types (type b);
  st ← literal_default availability_statuses "available"
         (availability_status b);
  Some {| name := name b;
          type := ty;
          branch_code := branch_code b;
          capacity := capacity b;
          availability_status := st |}.

Definition model_dump (r : t) : Document :=
  <["name" := VStr (name r)]>
  (<["type" := VStr (type r)]>
  (<["branch_code" := of_optional VStr (branch_code r)]>
  (<["capacity" := of_optional VInt (capacity r)]>
  (<["availability_status" := VStr (availability_status r)]> ∅)))).

End Resource.

Definition list_branches : App (list Document) :=
  get_documents (coll "branch") ∅.

Definition create_role (payload : Role.t) : App Document :=
  role_id ← create_document (coll "role") (Role.model_dump payload);
  mret {[ "id" := VStr role_id ]}.

Definition list_roles : App (list Document) :=
  get_documents (coll "role") ∅.

(** [q = {"branch_code": branch_code} if branch_code else {}] *)
Definition list_users (branch_code : option string) : App (list Document) :=
  let q : Document := set_if "branch_code" branch_code ∅ in
  get_documents (coll "user") q.

Definition create_resource (payload : Resource.t) : App Document :=
  res_id ← create_document (coll "resource") (Resource.model_dump payload);
  mret {[ "id" := VStr res_id ]}.

Definition list_reports (request_id : option string) : App (list Document) :=
  let q : Document := set_if "request_id" request_id ∅ in
  get_documents (coll "report") q.

Definition list_evaluations (request_id : option string)
  : App (list Document) :=
  let q : Document := set_if "request_id" request_id ∅ in
  get_documents (coll "evaluation") q.

Definition POST_roles : Role.t -> App Document :=
  endpoint Role.validate create_role.

Definition POST_resources : Resource.body -> App Document :=
  endpoint Resource.validate create_resource.

(** Names written in ASCII only, the range on which [lower] above is
    Python's [str.lower]. *)
Definition ascii_name (name : string) : Prop :=
  Forall (fun c => N_of_ascii c < 128) (list_ascii_of_string name).

(** A filter parameter as a condition on a document: an absent or empty
    parameter asks nothing, a non-empty one asks the field to be that
    string. *)
Definition asks (key : string) (param : option string) (doc : Document)
  : Prop :=
  forall s, param = Some s -> s <> "" -> doc !! key = Some (VStr s).

(** ** Reading the store back *)

Definition field (key : string) (o : option Document) : option Value :=
  doc ← o; doc !! key.

(** The status of the request a request id names, as a later read sees it. *)
Definition request_status (d : Database) (request_id : string) : option Value :=
  oid ← ObjectId request_id;
  field "status" (find_by_id (coll "programrequest") oid d).

(** ** The outcome of an approval *)

Definition decided (payload : Approval.t) : Prop :=
  Approval.decision payload = "approved" \/
  Approval.decision payload = "rejected".

(** The state after the two writes of [approve_request]. *)
Definition approved_store (payload : Approval.t) (oid : N) (d : Database)
  : Database :=
  update_one "programrequest"
    {[ "_id" := VObjectId oid ]}
    {[ "status" := VStr (target_status (Approval.decision payload)) ]}
    (append_document "approval" (approvals payload) d).2.

(** ** Running a route on a configured store *)

Definition run {A : Type} (m : App A) (d : Database) : (Exn + A) * Database :=
  let '(r, h) := m (Some d) in (r, default d h).

Definition response {A : Type} (m : App A) (d : Database) : Exn + A :=
  (run m d).1.

Definition exec {A : Type} (m : App A) (d : Database) : Database :=
  (run m d).2.

(** ** A small scenario: request R1 of branch RU-01 *)

Definition R1 : ProgramRequest.body :=
  ProgramRequest.mk "RU-01" "Campus clean-up" "student_activity"
    None None None [BudgetItem.mk "venue" 100%float] None None.

Definition R1_id : string := "000000000000000000000000".

Definition decision_on (request_id decision : string) : Approval.t :=
  Approval.mk request_id "dean@example.org" decision None.

Definition store_submitted : Database :=
  exec (POST_program_requests R1) empty_database.

Definition store_approved : Database :=
  exec (POST_approvals (decision_on R1_id "approved")) store_submitted.

Definition R1_stored : Document :=
  default ∅ (find_by_id "programrequest" 0 store_submitted).

Definition unknown_id : string := "00000000000000000000beef".

Definition R1_validated : ProgramRequest.t :=
  ProgramRequest.mk "RU-01" "Campus clean-up" "student_activity"
    None None None [BudgetItem.mk "venue" 100%float] None "submitted".

Definition R1_preapproved : ProgramRequest.body :=
  ProgramRequest.mk "RU-01" "Campus clean-up" "student_activity"
    None None None [BudgetItem.mk "venue" 100%float] None (Some "approved").

Definition R1_overdrawn : ProgramRequest.body :=
  ProgramRequest.mk "RU-01" "Campus clean-up" "student_activity"
    None None None
    [BudgetItem.mk "venue" 100%float; BudgetItem.mk "refund" (-5)%float]
    None None.

Definition event_for (request_id : option string) (start_time end_time : Z)
  : Event.body :=
  Event.mk request_id "Clean-up day" "RU-01" start_time end_time None [] None.

Definition event_validated (request_id : option string)
  (start_time end_time : Z) : Event.t :=
  Event.mk request_id "Clean-up day" "RU-01" start_time end_time None []
    "scheduled".

Definition store_scheduled : Database :=
  exec (POST_events (event_for (Some R1_id) 10 20)) store_approved.




(** * Properties *)

(** ** The store *)

Section store.

Implicit Types (d : Database) (q patch doc : Document) (l : list Document).

Lemma matches_empty doc : matches ∅ doc = true.
Proof. apply bool_decide_eq_true. apply map_Forall_empty. Qed.

Lemma matches_id (oid : N) doc :
  matches {["_id" := VObjectId oid]} doc = true <->
  doc !! "_id" = Some (VObjectId oid).
Proof.
  unfold matches. rewrite bool_decide_eq_true, map_Forall_singleton.
  unfold value_matches.
  destruct (doc !! "_id") as [[]|] eqn:E; try (split; congruence).
  rewrite N.eqb_eq. split; congruence.
Qed.

Lemma set_first_no_match q patch l :
  List.filter (matches q) l = [] -> set_first q patch l = l.
Proof.
  induction l as [|doc l IH]; simpl; [done|].
  destruct (matches q doc); [done|].
  intros H. by rewrite IH.
Qed.

Lemma set_first_head q patch l doc :
  head (List.filter (matches q) l) = Some doc ->
  matches q (patch ∪ doc) = true ->
  head (List.filter (matches q) (set_first q patch l)) = Some (patch ∪ doc).
Proof.
  intros Hhd Hm. induction l as [|x l IH]; simpl in *; [done|].
  destruct (matches q x) eqn:E; simpl.
  - injection Hhd as ->. by rewrite Hm.
  - rewrite E. by apply IH.
Qed.

Lemma collection_append_document name doc d :
  collection (append_document name doc d).2 name =
  (collection d name ++ [<["_id" := VObjectId (next_oid d)]> doc])%list.
Proof. unfold collection at 1. simpl. by rewrite lookup_insert_eq. Qed.

Lemma collection_append_document_ne name name' doc d :
  name <> name' ->
  collection (append_document name doc d).2 name' = collection d name'.
Proof. intros Hne. unfold collection. simpl. by rewrite lookup_insert_ne. Qed.

Lemma collection_update_one name q patch d :
  collection (update_one name q patch d) name =
  set_first q patch (collection d name).
Proof.
  unfold update_one, collection.
  destruct (collections d !! name) as [l|] eqn:E; simpl.
  - by rewrite lookup_insert_eq.
  - by rewrite E.
Qed.

Lemma collection_update_one_ne name name' q patch d :
  name <> name' ->
  collection (update_one name q patch d) name' = collection d name'.
Proof.
  intros Hne. unfold update_one, collection.
  destruct (collections d !! name) as [l|] eqn:E; simpl; [|done].
  by rewrite lookup_insert_ne.
Qed.

Lemma bson_fits_dict (m : Document) :
  bson_fits (VDict m) = true <->
  map_Forall (fun _ v => bson_fits v = true) m.
Proof.
  cbn [bson_fits].
  apply (map_fold_weak_ind
           (fun r m => r = true <->
                       map_Forall (fun _ v => bson_fits v = true) m)).
  - split; [intros _; apply map_Forall_empty | done].
  - intros key v m' r Hfree IH.
    rewrite map_Forall_insert by done.
    rewrite andb_true_iff. tauto.
Qed.

Lemma bson_fits_insert (key : string) (v : Value) (m : Document) :
  bson_fits v = true ->
  map_Forall (fun _ v' => bson_fits v' = true) m ->
  map_Forall (fun _ v' => bson_fits v' = true) (<[key := v]> m).
Proof. intros Hv Hm. by apply map_Forall_insert_2. Qed.

Lemma bson_fits_empty :
  map_Forall (fun (_ : string) v' => bson_fits v' = true) (∅ : Document).
Proof. apply map_Forall_empty. Qed.

Lemma bson_encode_fits doc :
  map_Forall (fun _ v => bson_fits v = true) doc ->
  bson_encode doc = Some (bson_stored <$> doc).
Proof.
  intros Hall. unfold bson_encode.
  by rewrite (proj2 (bson_fits_dict doc) Hall).
Qed.

Lemma bson_encode_overflow doc (key : string) (z : Z) :
  doc !! key = Some (VInt z) -> int64 z = false -> bson_encode doc = None.
Proof.
  intros Hkey Hz. unfold bson_encode.
  destruct (bson_fits (VDict doc)) eqn:E; [|done].
  apply bson_fits_dict in E. specialize (E key _ Hkey).
  simpl in E. congruence.
Qed.

Lemma create_document_run name (data stored : Document) d :
  bson_encode data = Some stored ->
  create_document name data (Some d)
  = (inr (str_ObjectId (next_oid d)), Some (append_document name stored d).2).
Proof.
  intros Henc. unfold create_document, insert_one. by rewrite Henc.
Qed.

Lemma create_document_overflow name (data : Document) d :
  bson_encode data = None ->
  create_document name data (Some d) = (inl OverflowError, Some d).
Proof.
  intros Henc. unfold create_document, insert_one. by rewrite Henc.
Qed.

Lemma bson_stored_strs (l : list string) :
  bson_stored (VStrs l) = VStrs l.
Proof.
  unfold VStrs. cbn [bson_stored]. f_equal.
  induction l as [|x l IH]; [done|]. cbn. f_equal. exact IH.
Qed.

Lemma bson_fits_strs (l : list string) : bson_fits (VStrs l) = true.
Proof.
  unfold VStrs. cbn [bson_fits].
  induction l as [|x l IH]; [done|]. cbn. exact IH.
Qed.

Lemma bson_fits_optional_str (o : option string) :
  bson_fits (of_optional VStr o) = true.
Proof. by destruct o. Qed.

Lemma bson_stored_optional_str (o : option string) :
  bson_stored (of_optional VStr o) = of_optional VStr o.
Proof. by destruct o. Qed.


Lemma update_one_no_match name q patch d :
  find name q d = [] -> update_one name q patch d = d.
Proof.
  unfold find, collection, update_one. intros H.
  destruct (collections d !! name) as [l|] eqn:E; simpl in *; [|done].
  rewrite set_first_no_match by done.
  rewrite insert_id by done. by destruct d.
Qed.

End store.

(** ** Recording an approval *)

Section approvals.

Implicit Types (d : Database) (payload : Approval.t) (doc : Document).

Lemma Approval_validate_decided payload :
  decided payload -> Approval.validate payload = Some payload.
Proof.
  destruct payload as [rid by_ dec notes]. unfold decided. simpl.
  intros [-> | ->]; reflexivity.
Qed.

Lemma Approval_validate_inv payload p :
  Approval.validate payload = Some p -> decided payload /\ p = payload.
Proof.
  destruct payload as [rid by_ dec notes].
  unfold Approval.validate, literal, decided. simpl.
  destruct (String.eqb_spec dec "approved") as [-> | _]; simpl.
  { intros [= <-]. auto. }
  destruct (String.eqb_spec dec "rejected") as [-> | _]; simpl.
  { intros [= <-]. auto. }
  discriminate.
Qed.

Lemma target_status_decided payload :
  decided payload ->
  target_status (Approval.decision payload) = Approval.decision payload.
Proof. intros [-> | ->]; reflexivity. Qed.

Lemma bson_encode_approvals payload :
  bson_encode (approvals payload) = Some (approvals payload).
Proof. destruct payload as [rid by_ dec [note|]]; reflexivity. Qed.

Lemma approve_request_run d payload oid :
  ObjectId (Approval.request_id payload) = Some oid ->
  approve_request payload (Some d) =
  (inr {[ "id" := VStr (str_ObjectId (next_oid d)) ]},
   Some (approved_store payload oid d)).
Proof.
  intros Hoid. unfold approve_request, mbind, App_bind, get_db.
  rewrite (create_document_run _ _ _ d (bson_encode_approvals payload)).
  rewrite Hoid. reflexivity.
Qed.

Lemma approve_request_invalid_id d payload :
  ObjectId (Approval.request_id payload) = None ->
  approve_request payload (Some d) =
  (inl InvalidId, Some (append_document "approval" (approvals payload) d).2).
Proof.
  intros Hoid. unfold approve_request, mbind, App_bind, get_db.
  rewrite (create_document_run _ _ _ d (bson_encode_approvals payload)).
  rewrite Hoid. reflexivity.
Qed.

Lemma approved_store_approvals payload oid d :
  collection (approved_store payload oid d) "approval" =
  (collection d "approval"
     ++ [<["_id" := VObjectId (next_oid d)]> (approvals payload)])%list.
Proof.
  unfold approved_store.
  rewrite collection_update_one_ne by discriminate.
  apply collection_append_document.
Qed.

Lemma head_filter_true {A : Type} (f : A -> bool) (l : list A) (x : A) :
  head (List.filter f l) = Some x -> f x = true.
Proof.
  induction l as [|y l IH]; simpl; [done|].
  destruct (f y) eqn:E; simpl; [|done].
  by intros [= <-].
Qed.

Lemma approved_store_request payload oid d doc :
  find_by_id "programrequest" oid d = Some doc ->
  find_by_id "programrequest" oid (approved_store payload oid d) =
  Some ({[ "status" := VStr (target_status (Approval.decision payload)) ]}
          ∪ doc).
Proof.
  unfold find_by_id, find, approved_store. intros Hdoc.
  rewrite collection_update_one.
  rewrite collection_append_document_ne by discriminate.
  apply set_first_head; [done|].
  apply matches_id.
  rewrite lookup_union_r by (by apply lookup_singleton_ne).
  apply matches_id. by apply (head_filter_true _ _ _ Hdoc).
Qed.

Lemma approved_store_status payload oid d doc :
  ObjectId (Approval.request_id payload) = Some oid ->
  find_by_id "programrequest" oid d = Some doc ->
  request_status (approved_store payload oid d) (Approval.request_id payload)
  = Some (VStr (target_status (Approval.decision payload))).
Proof.
  intros Hoid Hdoc. unfold request_status. rewrite Hoid. simpl.
  change (coll "programrequest") with "programrequest".
  rewrite (approved_store_request _ _ _ _ Hdoc). simpl.
  apply lookup_union_Some_l, lookup_singleton_eq.
Qed.

Lemma approved_store_no_request payload oid d :
  find_by_id "programrequest" oid d = None ->
  collection (approved_store payload oid d) "programrequest" =
  collection d "programrequest".
Proof.
  unfold find_by_id, find, approved_store. intros Hnone.
  rewrite collection_update_one.
  rewrite collection_append_document_ne by discriminate.
  apply set_first_no_match.
  destruct (List.filter _ _); [done | discriminate].
Qed.

End approvals.

Section approval_claims.

Implicit Types (d : Database) (payload : Approval.t) (doc : Document).

Lemma approve_existing d payload oid doc :
  decided payload ->
  ObjectId (Approval.request_id payload) = Some oid ->
  find_by_id "programrequest" oid d = Some doc ->
  POST_approvals payload (Some d) =
    (inr {[ "id" := VStr (str_ObjectId (next_oid d)) ]},
     Some (approved_store payload oid d)) /\
  request_status (approved_store payload oid d) (Approval.request_id payload)
    = Some (VStr (Approval.decision payload)).
Proof.
  intros Hdec Hoid Hdoc. split.
  - unfold POST_approvals, endpoint.
    rewrite (Approval_validate_decided _ Hdec).
    by apply approve_request_run.
  - rewrite (approved_store_status _ _ _ _ Hoid Hdoc).
    by rewrite target_status_decided.
Qed.

Lemma request_status_inv d rid v :
  request_status d rid = Some v ->
  exists oid doc,
    ObjectId rid = Some oid /\ find_by_id "programrequest" oid d = Some doc.
Proof.
  unfold request_status. change (coll "programrequest") with "programrequest".
  intros H. destruct (ObjectId rid) as [oid|]; [|discriminate H].
  change (field "status" (find_by_id "programrequest" oid d) = Some v) in H.
  destruct (find_by_id "programrequest" oid d) as [doc|] eqn:E; [eauto|].
  discriminate H.
Qed.

(** C1, as the code has it: [approve_request] never looks at the current
    status.  On a request whose status is already [approved] or [rejected], a
    further approval with either decision succeeds and the status reads back
    as the new decision. *)
Theorem approval_on_terminal_request d payload st :
  decided payload ->
  st = "approved" \/ st = "rejected" ->
  request_status d (Approval.request_id payload) = Some (VStr st) ->
  exists r d',
    POST_approvals payload (Some d) = (inr r, Some d') /\
    request_status d' (Approval.request_id payload)
      = Some (VStr (Approval.decision payload)).
Proof.
  intros Hdec _ Hst.
  destruct (request_status_inv _ _ _ Hst) as (oid & doc & Hoid & Hdoc).
  destruct (approve_existing d payload oid doc Hdec Hoid Hdoc) as [Hrun Hrd].
  eauto.
Qed.

Lemma approval_on_terminal_request_witness :
  exists r d',
    POST_approvals (decision_on R1_id "rejected") (Some store_approved)
      = (inr r, Some d') /\
    request_status d' R1_id = Some (VStr "rejected").
Proof.
  apply (approval_on_terminal_request store_approved
           (decision_on R1_id "rejected") "approved").
  - right; reflexivity.
  - left; reflexivity.
  - vm_compute; reflexivity.
Defined.

(** C1 fails on the code: R1 is submitted and approved, then a second
    approval, with decision [rejected], is accepted and turns the status
    from [approved] into [rejected]. *)
Lemma second_approval_overwrites :
  request_status store_approved R1_id = Some (VStr "approved") /\
  response (POST_approvals (decision_on R1_id "rejected")) store_approved
    = inr {[ "id" := VStr "000000000000000000000002" ]} /\
  request_status
    (exec (POST_approvals (decision_on R1_id "rejected")) store_approved)
    R1_id = Some (VStr "rejected").
Proof. repeat split; vm_compute; reflexivity. Qed.

(** C3: on a configured store, for a request that exists, an approval with
    decision [approved] or [rejected] succeeds, and afterwards the status of
    the request reads back as [approved], respectively [rejected].  The
    current status plays no part, so this covers every status from which the
    transition is permitted. *)
Theorem approval_sets_status d payload oid doc :
  decided payload ->
  ObjectId (Approval.request_id payload) = Some oid ->
  find_by_id "programrequest" oid d = Some doc ->
  exists r d',
    POST_approvals payload (Some d) = (inr r, Some d') /\
    (Approval.decision payload = "approved" ->
     request_status d' (Approval.request_id payload)
       = Some (VStr "approved")) /\
    (Approval.decision payload = "rejected" ->
     request_status d' (Approval.request_id payload)
       = Some (VStr "rejected")).
Proof.
  intros Hdec Hoid Hdoc.
  destruct (approve_existing d payload oid doc Hdec Hoid Hdoc) as [Hrun Hrd].
  eexists _, _. split; [exact Hrun|].
  split; intros E; rewrite Hrd, E; reflexivity.
Qed.

Lemma approval_sets_status_witness :
  exists r d',
    POST_approvals (decision_on R1_id "approved") (Some store_submitted)
      = (inr r, Some d') /\
    (Approval.decision (decision_on R1_id "approved") = "approved" ->
     request_status d' R1_id = Some (VStr "approved")) /\
    (Approval.decision (decision_on R1_id "approved") = "rejected" ->
     request_status d' R1_id = Some (VStr "rejected")).
Proof.
  apply (approval_sets_status store_submitted
           (decision_on R1_id "approved") 0 R1_stored).
  - left; reflexivity.
  - vm_compute; reflexivity.
  - vm_compute; reflexivity.
Defined.

(** C4, as the code has it: the approval is inserted first and the status
    is set by a second, separate write.  For a request that exists both
    writes take place: the approval collection gains the record and the
    status reads back as the decision.  Without a configured store the
    handler raises before either write. *)
Theorem approval_two_writes d payload oid doc :
  decided payload ->
  ObjectId (Approval.request_id payload) = Some oid ->
  find_by_id "programrequest" oid d = Some doc ->
  (exists r d',
     POST_approvals payload (Some d) = (inr r, Some d') /\
     collection d' "approval" =
       (collection d "approval"
          ++ [<["_id" := VObjectId (next_oid d)]> (approvals payload)])%list /\
     request_status d' (Approval.request_id payload)
       = Some (VStr (Approval.decision payload))) /\
  POST_approvals payload None
    = (inl (HTTPException 500 "Database not configured"), None).
Proof.
  intros Hdec Hoid Hdoc. split.
  - destruct (approve_existing d payload oid doc Hdec Hoid Hdoc) as [Hrun Hrd].
    eexists _, _. split; [exact Hrun|]. split; [|exact Hrd].
    apply approved_store_approvals.
  - unfold POST_approvals, endpoint.
    rewrite (Approval_validate_decided _ Hdec). reflexivity.
Qed.

Lemma approval_two_writes_witness :
  (exists r d',
     POST_approvals (decision_on R1_id "rejected") (Some store_submitted)
       = (inr r, Some d') /\
     collection d' "approval" =
       (collection store_submitted "approval"
          ++ [<["_id" := VObjectId (next_oid store_submitted)]>
                (approvals (decision_on R1_id "rejected"))])%list /\
     request_status d' R1_id = Some (VStr "rejected")) /\
  POST_approvals (decision_on R1_id "rejected") None
    = (inl (HTTPException 500 "Database not configured"), None).
Proof.
  apply (approval_two_writes store_submitted
           (decision_on R1_id "rejected") 0 R1_stored).
  - right; reflexivity.
  - vm_compute; reflexivity.
  - vm_compute; reflexivity.
Defined.

(** C4 fails on the code: with R1 stored and an approval whose request id is
    not an object id, the approval is inserted, then [ObjectId] raises.  The
    call fails with the approval record left in the store and the status of
    R1 still [submitted]. *)
Lemma approval_left_behind :
  response (POST_approvals (decision_on "R1" "approved")) store_submitted
    = inl InvalidId /\
  collection (exec (POST_approvals (decision_on "R1" "approved"))
                store_submitted) "approval"
    = [<["_id" := VObjectId 1]> (approvals (decision_on "R1" "approved"))] /\
  collection store_submitted "approval" = [] /\
  request_status (exec (POST_approvals (decision_on "R1" "approved"))
                    store_submitted) R1_id
    = Some (VStr "submitted").
Proof. repeat split; vm_compute; reflexivity. Qed.

(** C5, as the code has it: [approve_request] does not look the request up.
    For a well-formed request id that names no stored request the call
    succeeds and returns the identity under which the approval record is
    added to the approval collection; the request collection is left as it
    was. *)
Theorem approval_of_missing_request d payload oid :
  decided payload ->
  ObjectId (Approval.request_id payload) = Some oid ->
  find_by_id "programrequest" oid d = None ->
  exists d',
    POST_approvals payload (Some d)
      = (inr {[ "id" := VStr (str_ObjectId (next_oid d)) ]}, Some d') /\
    collection d' "approval" =
      (collection d "approval"
         ++ [<["_id" := VObjectId (next_oid d)]> (approvals payload)])%list /\
    collection d' "programrequest" = collection d "programrequest".
Proof.
  intros Hdec Hoid Hnone.
  exists (approved_store payload oid d).
  split; [|split].
  - unfold POST_approvals, endpoint.
    rewrite (Approval_validate_decided _ Hdec).
    by apply approve_request_run.
  - apply approved_store_approvals.
  - by apply approved_store_no_request.
Qed.

Lemma approval_of_missing_request_witness :
  exists d',
    POST_approvals (decision_on unknown_id "approved") (Some store_submitted)
      = (inr {[ "id" := VStr (str_ObjectId (next_oid store_submitted)) ]},
         Some d') /\
    collection d' "approval" =
      (collection store_submitted "approval"
         ++ [<["_id" := VObjectId (next_oid store_submitted)]>
               (approvals (decision_on unknown_id "approved"))])%list /\
    collection d' "programrequest" = collection store_submitted "programrequest".
Proof.
  apply (approval_of_missing_request store_submitted
           (decision_on unknown_id "approved") 48879).
  - left; reflexivity.
  - vm_compute; reflexivity.
  - vm_compute; reflexivity.
Defined.

(** C5 fails on the code: on an empty store, an approval for a request id
    that names no request does not fail; it returns the identity of the
    approval record it has stored. *)
Lemma approval_without_request_stored :
  find_by_id "programrequest" 48879 empty_database = None /\
  response (POST_approvals (decision_on unknown_id "approved")) empty_database
    = inr {[ "id" := VStr "000000000000000000000000" ]} /\
  collection (exec (POST_approvals (decision_on unknown_id "approved"))
                empty_database) "approval"
    = [<["_id" := VObjectId 0]>
         (approvals (decision_on unknown_id "approved"))].
Proof. repeat split; vm_compute; reflexivity. Qed.

End approval_claims.

(** ** Submitting a request *)

Section submit_claims.

Implicit Types (d : Database) (b : ProgramRequest.body) (p : ProgramRequest.t).

(** Python's [x < 0] excludes [x >= 0] on floats, NaN included. *)
Lemma negative_not_ge0 (x : float) :
  PrimFloat.ltb x 0%float = true -> PrimFloat.leb 0%float x = false.
Proof.
  rewrite ltb_spec, leb_spec.
  change (Prim2SF 0%float) with (S754_zero false).
  destruct (Prim2SF x) as [[]|[]| |[] m e]; cbn; congruence.
Qed.

Lemma BudgetItem_validate_negative (item : BudgetItem.t) :
  PrimFloat.ltb (BudgetItem.amount item) 0%float = true ->
  BudgetItem.validate item = None.
Proof.
  intros H. unfold BudgetItem.validate.
  by rewrite (negative_not_ge0 _ H).
Qed.

Lemma literal_inv allowed s s' : literal allowed s = Some s' -> s' = s.
Proof. unfold literal. destruct (existsb _ _); congruence. Qed.

Lemma validate_status b p :
  ProgramRequest.validate b = Some p ->
  ProgramRequest.status p = default "submitted" (ProgramRequest.status b).
Proof.
  unfold ProgramRequest.validate. intros H.
  destruct (literal _ (ProgramRequest.program_type b)); simpl in H; [|done].
  destruct (mapM _ _); simpl in H; [|done].
  destruct (literal_default _ _ _) as [st|] eqn:E; simpl in H; [|done].
  injection H as <-. simpl.
  unfold literal_default in E.
  destruct (ProgramRequest.status b) as [given|]; simpl.
  - by apply literal_inv in E.
  - congruence.
Qed.

Lemma bson_fits_budget (items : list BudgetItem.t) :
  bson_fits (VList (BudgetItem.model_dump <$> items)) = true.
Proof.
  cbn [bson_fits]. induction items as [|item items IH]; [done|].
  cbn. exact IH.
Qed.

Lemma bson_encode_ProgramRequest p :
  bson_encode (ProgramRequest.model_dump p)
  = Some (bson_stored <$> ProgramRequest.model_dump p).
Proof.
  apply bson_encode_fits. unfold ProgramRequest.model_dump.
  repeat (apply bson_fits_insert;
          [first [reflexivity | apply bson_fits_optional_str
                 | apply bson_fits_budget | idtac] |]).
  - by destruct (ProgramRequest.proposed_date p).
  - apply bson_fits_empty.
Qed.

Lemma submit_program_request_run d p :
  submit_program_request p (Some d) =
  (inr {[ "id" := VStr (str_ObjectId (next_oid d));
          "status" := VStr (ProgramRequest.status p) ]},
   Some (append_document "programrequest"
           (bson_stored <$> ProgramRequest.model_dump p) d).2).
Proof.
  unfold submit_program_request, mbind, App_bind.
  by rewrite (create_document_run _ _ _ d (bson_encode_ProgramRequest p)).
Qed.

(** C2, as the code has it: the model accepts any of the four statuses and
    the handler stores and returns the one it was given.  For every accepted
    body the stored request and the response carry the supplied status, and
    [submitted] when the body supplies none. *)
Theorem submitted_status_as_supplied d b p :
  ProgramRequest.validate b = Some p ->
  exists r d' doc,
    POST_program_requests b (Some d) = (inr r, Some d') /\
    r !! "status"
      = Some (VStr (default "submitted" (ProgramRequest.status b))) /\
    collection d' "programrequest"
      = (collection d "programrequest" ++ [doc])%list /\
    doc !! "status"
      = Some (VStr (default "submitted" (ProgramRequest.status b))).
Proof.
  intros Hv. pose proof (validate_status _ _ Hv) as Hst.
  eexists _, _, _. split; [|split; [|split]].
  - unfold POST_program_requests, endpoint. rewrite Hv.
    apply submit_program_request_run.
  - rewrite Hst. reflexivity.
  - apply collection_append_document.
  - rewrite <- Hst. reflexivity.
Qed.

Lemma submitted_status_as_supplied_witness :
  exists r d' doc,
    POST_program_requests R1 (Some empty_database) = (inr r, Some d') /\
    r !! "status" = Some (VStr "submitted") /\
    collection d' "programrequest"
      = (collection empty_database "programrequest" ++ [doc])%list /\
    doc !! "status" = Some (VStr "submitted").
Proof.
  apply (submitted_status_as_supplied empty_database R1 R1_validated).
  vm_compute; reflexivity.
Defined.

(** C2 fails on the code: a body that supplies status [approved] is stored
    with status [approved], and [approved] is the status returned. *)
Lemma supplied_status_kept :
  response (POST_program_requests R1_preapproved) empty_database
    = inr {[ "id" := VStr R1_id; "status" := VStr "approved" ]} /\
  request_status (exec (POST_program_requests R1_preapproved) empty_database)
    R1_id = Some (VStr "approved").
Proof. split; vm_compute; reflexivity. Qed.

(** C9: a body with a budget item whose amount is negative is rejected by
    the model, with a validation error, before the handler runs; the store
    handle, configured or not, is returned as it was, so nothing is
    persisted. *)
Theorem negative_budget_rejected (h : option Database) b :
  Exists (fun item => PrimFloat.ltb (BudgetItem.amount item) 0%float = true)
    (ProgramRequest.budget b) ->
  POST_program_requests b h = (inl RequestValidationError, h) /\
  status_code_of RequestValidationError = 422%Z.
Proof.
  intros Hneg. split; [|reflexivity].
  assert (mapM BudgetItem.validate (ProgramRequest.budget b) = None) as Hm.
  { apply mapM_None. eapply Exists_impl; [exact Hneg|].
    intros item. apply BudgetItem_validate_negative. }
  unfold POST_program_requests, endpoint, ProgramRequest.validate.
  destruct (literal _ (ProgramRequest.program_type b)); simpl; [|done].
  by rewrite Hm.
Qed.

Lemma negative_budget_rejected_witness :
  POST_program_requests R1_overdrawn (Some store_submitted)
    = (inl RequestValidationError, Some store_submitted) /\
  status_code_of RequestValidationError = 422%Z.
Proof.
  apply (negative_budget_rejected (Some store_submitted) R1_overdrawn).
  right. left. vm_compute; reflexivity.
Defined.

End submit_claims.

(** ** Scheduling an event *)

Section event_claims.

Implicit Types (d : Database) (b : Event.body) (e : Event.t).

Lemma Event_validate_inv b e :
  Event.validate b = Some e ->
  Event.request_id e = Event.request_id b /\
  Event.start_time e = Event.start_time b /\
  Event.end_time e = Event.end_time b.
Proof.
  unfold Event.validate. intros H.
  destruct (literal_default _ _ _); simpl in H; [|done].
  by injection H as <-.
Qed.

Lemma bson_encode_Event e :
  bson_encode (Event.model_dump e)
  = Some (bson_stored <$> Event.model_dump e).
Proof.
  apply bson_encode_fits. unfold Event.model_dump.
  repeat (apply bson_fits_insert;
          [first [reflexivity | apply bson_fits_optional_str
                 | apply bson_fits_strs] |]).
  apply bson_fits_empty.
Qed.

Lemma POST_events_run d b e :
  Event.validate b = Some e ->
  POST_events b (Some d) =
  (inr {[ "id" := VStr (str_ObjectId (next_oid d)) ]},
   Some (append_document "event" (bson_stored <$> Event.model_dump e) d).2).
Proof.
  intros Hv. unfold POST_events, endpoint. rewrite Hv.
  unfold create_event, mbind, App_bind.
  by rewrite (create_document_run _ _ _ d (bson_encode_Event e)).
Qed.

(** C6, as the code has it: [create_event] stores the payload without
    reading the request collection.  For every accepted body, on every
    store (so whether or not the request named exists, and whatever its
    status), the call succeeds, one event record carrying the supplied
    request id is appended, and the requests are left as they were. *)
Theorem event_created_whatever_the_request d b e :
  Event.validate b = Some e ->
  exists r d' doc,
    POST_events b (Some d) = (inr r, Some d') /\
    collection d' "event" = (collection d "event" ++ [doc])%list /\
    doc !! "request_id" = Some (of_optional VStr (Event.request_id b)) /\
    collection d' "programrequest" = collection d "programrequest".
Proof.
  intros Hv. destruct (Event_validate_inv _ _ Hv) as (Hrid & _ & _).
  eexists _, _, _. split; [|split; [|split]].
  - by apply POST_events_run.
  - apply collection_append_document.
  - rewrite lookup_insert_ne by done. rewrite lookup_fmap.
    change (Event.model_dump e !! "request_id")
      with (Some (of_optional VStr (Event.request_id e))).
    rewrite Hrid. simpl. by rewrite bson_stored_optional_str.
  - by apply collection_append_document_ne.
Qed.

Lemma event_created_whatever_the_request_witness :
  exists r d' doc,
    POST_events (event_for (Some R1_id) 10 20) (Some store_submitted)
      = (inr r, Some d') /\
    collection d' "event"
      = (collection store_submitted "event" ++ [doc])%list /\
    doc !! "request_id" = Some (VStr R1_id) /\
    collection d' "programrequest" = collection store_submitted "programrequest".
Proof.
  apply (event_created_whatever_the_request store_submitted
           (event_for (Some R1_id) 10 20)
           (event_validated (Some R1_id) 10 20)).
  vm_compute; reflexivity.
Defined.

(** C6 fails on the code: an event that names R1 while R1 is still
    [submitted] is created, and so is an event that names a request that
    does not exist. *)
Lemma event_on_unapproved_request :
  request_status store_submitted R1_id = Some (VStr "submitted") /\
  response (POST_events (event_for (Some R1_id) 10 20)) store_submitted
    = inr {[ "id" := VStr "000000000000000000000001" ]} /\
  length (collection (exec (POST_events (event_for (Some R1_id) 10 20))
                        store_submitted) "event") = 1%nat /\
  request_status store_submitted unknown_id = None /\
  response (POST_events (event_for (Some unknown_id) 10 20)) store_submitted
    = inr {[ "id" := VStr "000000000000000000000001" ]} /\
  length (collection (exec (POST_events (event_for (Some unknown_id) 10 20))
                        store_submitted) "event") = 1%nat.
Proof. repeat split; vm_compute; reflexivity. Qed.

(** C7, as the code has it: neither the model nor [create_event] compares
    the two times.  For every accepted body the call succeeds and the event
    is stored with [start_time] and [end_time] as supplied, each kept to the
    millisecond by the store, in whatever order they are. *)
Theorem event_times_stored_unchecked d b e :
  Event.validate b = Some e ->
  exists r d' doc,
    POST_events b (Some d) = (inr r, Some d') /\
    collection d' "event" = (collection d "event" ++ [doc])%list /\
    doc !! "start_time"
      = Some (VDatetime (1000 * (Event.start_time b / 1000))) /\
    doc !! "end_time"
      = Some (VDatetime (1000 * (Event.end_time b / 1000))).
Proof.
  intros Hv. destruct (Event_validate_inv _ _ Hv) as (_ & Hst & Hen).
  eexists _, _, _. split; [|split; [|split]].
  - by apply POST_events_run.
  - apply collection_append_document.
  - rewrite <- Hst. reflexivity.
  - rewrite <- Hen. reflexivity.
Qed.

Lemma event_times_stored_unchecked_witness :
  exists r d' doc,
    POST_events (event_for None 1500 2750) (Some empty_database)
      = (inr r, Some d') /\
    collection d' "event"
      = (collection empty_database "event" ++ [doc])%list /\
    doc !! "start_time" = Some (VDatetime (1000 * (1500 / 1000))) /\
    doc !! "end_time" = Some (VDatetime (1000 * (2750 / 1000))).
Proof.
  apply (event_times_stored_unchecked empty_database
           (event_for None 1500 2750) (event_validated None 1500 2750)).
  vm_compute; reflexivity.
Defined.

(** C7 fails on the code: an event that starts at 20 ms and ends at 10 ms
    is accepted and stored, and reads back with these two times. *)
Lemma event_ending_before_start :
  (Event.start_time (event_for None 20000 10000)
     >= Event.end_time (event_for None 20000 10000))%Z /\
  response (POST_events (event_for None 20000 10000)) empty_database
    = inr {[ "id" := VStr "000000000000000000000000" ]} /\
  field "start_time"
    (find_by_id "event" 0
       (exec (POST_events (event_for None 20000 10000)) empty_database))
    = Some (VDatetime 20000) /\
  field "end_time"
    (find_by_id "event" 0
       (exec (POST_events (event_for None 20000 10000)) empty_database))
    = Some (VDatetime 10000).
Proof. repeat split; vm_compute; (reflexivity || discriminate). Qed.

End event_claims.

(** ** Reports and evaluations *)

Section report_claims.

Implicit Types (d : Database) (rep : Report.t) (ev : Evaluation.t).










End report_claims.

(** ** Listing *)

Section list_claims.

Implicit Types (d : Database) (h : option Database) (o : option string).

Lemma set_if_empty_string key (q : Document) :
  set_if key (Some "") q = set_if key None q.
Proof. reflexivity. Qed.

Lemma filter_matches_empty (l : list Document) :
  List.filter (matches ∅) l = l.
Proof.
  induction l as [|doc l IH]; simpl; [done|].
  by rewrite matches_empty, IH.
Qed.

Lemma get_documents_all name d :
  get_documents name ∅ (Some d) = (inr (collection d name), Some d).
Proof.
  unfold get_documents, find. by rewrite filter_matches_empty.
Qed.

(** C10: in each of the four list operations an optional filter given as
    the empty string builds the same query as the filter left out, so the
    two calls return the same thing on every store handle; and when every
    filter is empty or left out, the whole collection is returned. *)
Theorem empty_filter_is_no_filter h d o :
  (list_program_requests (Some "") o h = list_program_requests None o h /\
   list_program_requests o (Some "") h = list_program_requests o None h /\
   list_program_requests (Some "") (Some "") (Some d)
     = (inr (collection d "programrequest"), Some d)) /\
  (list_events (Some "") o h = list_events None o h /\
   list_events o (Some "") h = list_events o None h /\
   list_events (Some "") (Some "") (Some d)
     = (inr (collection d "event"), Some d)) /\
  (list_resources (Some "") o h = list_resources None o h /\
   list_resources o (Some "") h = list_resources o None h /\
   list_resources (Some "") (Some "") (Some d)
     = (inr (collection d "resource"), Some d)) /\
  (list_notifications (Some "") o h = list_notifications None o h /\
   list_notifications o (Some "") h = list_notifications o None h /\
   list_notifications (Some "") (Some "") (Some d)
     = (inr (collection d "notification"), Some d)).
Proof.
  repeat split; try reflexivity.
  - apply (get_documents_all "programrequest").
  - apply (get_documents_all "event").
  - apply (get_documents_all "resource").
  - apply (get_documents_all "notification").
Qed.

End list_claims.

(** ** More on approvals *)

Section approval_more.

Implicit Types (d : Database) (payload : Approval.t) (doc : Document).

Lemma Approval_validate_undecided payload :
  ~ decided payload -> Approval.validate payload = None.
Proof.
  intros Hnot. destruct (Approval.validate payload) as [p|] eqn:E; [|done].
  destruct (Approval_validate_inv _ _ E) as [Hdec _]. by destruct Hnot.
Qed.

(** A decision other than [approved] and [rejected] is refused by the model:
    the route answers with a validation error and the handler never runs, so
    the store handle comes back as it was. *)
Theorem unknown_decision_rejected (h : option Database) payload :
  ~ decided payload ->
  POST_approvals payload h = (inl RequestValidationError, h).
Proof.
  intros Hnot. unfold POST_approvals, endpoint.
  by rewrite (Approval_validate_undecided _ Hnot).
Qed.

Lemma unknown_decision_rejected_witness :
  POST_approvals (decision_on R1_id "postponed") (Some store_submitted)
    = (inl RequestValidationError, Some store_submitted).
Proof.
  apply (unknown_decision_rejected (Some store_submitted)
           (decision_on R1_id "postponed")).
  intros [H | H]; vm_compute in H; discriminate H.
Defined.

(** Every accepted approval, on a configured store, adds exactly one record
    at the end of the approval collection, holding the four fields of the
    payload; this is so whether the call then succeeds or fails, and the
    records that were there stay in place. *)
Theorem approval_history_appended d payload :
  decided payload ->
  exists r d',
    POST_approvals payload (Some d) = (r, Some d') /\
    collection d' "approval" =
      (collection d "approval"
         ++ [<["_id" := VObjectId (next_oid d)]> (approvals payload)])%list.
Proof.
  intros Hdec. unfold POST_approvals, endpoint.
  rewrite (Approval_validate_decided _ Hdec).
  destruct (ObjectId (Approval.request_id payload)) as [oid|] eqn:Hoid.
  - rewrite (approve_request_run _ _ _ Hoid). eexists _, _. split; [done|].
    apply approved_store_approvals.
  - rewrite (approve_request_invalid_id _ _ Hoid). eexists _, _.
    split; [done|]. apply collection_append_document.
Qed.

Lemma approval_history_appended_witness :
  exists r d',
    POST_approvals (decision_on "R1" "approved") (Some store_approved)
      = (r, Some d') /\
    collection d' "approval" =
      (collection store_approved "approval"
         ++ [<["_id" := VObjectId (next_oid store_approved)]>
               (approvals (decision_on "R1" "approved"))])%list.
Proof.
  apply (approval_history_appended store_approved
           (decision_on "R1" "approved")).
  left; reflexivity.
Defined.

Lemma ObjectId_length (s : string) (oid : N) :
  ObjectId s = Some oid -> String.length s = 24%nat.
Proof.
  unfold ObjectId. destruct (Nat.eqb_spec (String.length s) 24); [done|].
  discriminate.
Qed.

(** A request id that is not 24 characters long makes [ObjectId] raise
    after the approval has been stored: the call fails as a server error,
    the approval record stays, and every other collection is unchanged. *)
Theorem approval_malformed_id d payload :
  decided payload ->
  String.length (Approval.request_id payload) <> 24%nat ->
  exists d',
    POST_approvals payload (Some d) = (inl InvalidId, Some d') /\
    status_code_of InvalidId = 500%Z /\
    collection d' "approval" =
      (collection d "approval"
         ++ [<["_id" := VObjectId (next_oid d)]> (approvals payload)])%list /\
    forall name, name <> "approval" -> collection d' name = collection d name.
Proof.
  intros Hdec Hlen.
  assert (ObjectId (Approval.request_id payload) = None) as Hoid.
  { destruct (ObjectId _) as [oid|] eqn:E; [|done].
    by apply ObjectId_length in E. }
  exists (append_document "approval" (approvals payload) d).2.
  split; [|split; [done|split]].
  - unfold POST_approvals, endpoint.
    rewrite (Approval_validate_decided _ Hdec).
    by apply approve_request_invalid_id.
  - apply collection_append_document.
  - intros name Hne. by apply collection_append_document_ne.
Qed.

Lemma approval_malformed_id_witness :
  exists d',
    POST_approvals (decision_on "R1" "rejected") (Some store_submitted)
      = (inl InvalidId, Some d') /\
    status_code_of InvalidId = 500%Z /\
    collection d' "approval" =
      (collection store_submitted "approval"
         ++ [<["_id" := VObjectId (next_oid store_submitted)]>
               (approvals (decision_on "R1" "rejected"))])%list /\
    forall name,
      name <> "approval" -> collection d' name = collection store_submitted name.
Proof.
  apply (approval_malformed_id store_submitted (decision_on "R1" "rejected")).
  - right; reflexivity.
  - vm_compute; discriminate.
Defined.

Lemma set_first_other_id (oid oid' : N) (patch : Document)
  (l : list Document) :
  oid' <> oid -> patch !! "_id" = None ->
  List.filter (matches {["_id" := VObjectId oid']})
    (set_first {["_id" := VObjectId oid]} patch l)
  = List.filter (matches {["_id" := VObjectId oid']}) l.
Proof.
  intros Hne Hpatch. induction l as [|doc l IH]; simpl; [done|].
  destruct (matches {["_id" := VObjectId oid]} doc) eqn:E; simpl.
  - apply matches_id in E.
    assert (matches {["_id" := VObjectId oid']} doc = false) as ->.
    { apply not_true_is_false. rewrite matches_id, E. congruence. }
    assert (matches {["_id" := VObjectId oid']} (patch ∪ doc) = false) as ->.
    { apply not_true_is_false. rewrite matches_id.
      rewrite lookup_union_r by done. rewrite E. congruence. }
    done.
  - by rewrite IH.
Qed.

(** An approval touches one request only: every request with another
    identity reads back exactly as before, and so does every collection
    other than the approvals and the requests. *)
Theorem approval_leaves_other_requests d payload oid :
  decided payload ->
  ObjectId (Approval.request_id payload) = Some oid ->
  exists r d',
    POST_approvals payload (Some d) = (inr r, Some d') /\
    (forall oid', oid' <> oid ->
       find_by_id "programrequest" oid' d'
         = find_by_id "programrequest" oid' d) /\
    (forall name, name <> "approval" -> name <> "programrequest" ->
       collection d' name = collection d name).
Proof.
  intros Hdec Hoid.
  exists {[ "id" := VStr (str_ObjectId (next_oid d)) ]},
         (approved_store payload oid d).
  split; [|split].
  - unfold POST_approvals, endpoint.
    rewrite (Approval_validate_decided _ Hdec).
    by apply approve_request_run.
  - intros oid' Hne. unfold find_by_id, find, approved_store.
    rewrite collection_update_one.
    rewrite collection_append_document_ne by discriminate.
    rewrite set_first_other_id; [done|done|].
    by apply lookup_singleton_ne.
  - intros name Hna Hnp. unfold approved_store.
    rewrite collection_update_one_ne by done.
    by apply collection_append_document_ne.
Qed.

Lemma approval_leaves_other_requests_witness :
  exists r d',
    POST_approvals (decision_on unknown_id "approved") (Some store_submitted)
      = (inr r, Some d') /\
    (forall oid', oid' <> 48879 ->
       find_by_id "programrequest" oid' d'
         = find_by_id "programrequest" oid' store_submitted) /\
    (forall name, name <> "approval" -> name <> "programrequest" ->
       collection d' name = collection store_submitted name).
Proof.
  apply (approval_leaves_other_requests store_submitted
           (decision_on unknown_id "approved") 48879).
  - left; reflexivity.
  - vm_compute; reflexivity.
Defined.

(** An approval rewrites the [status] field of the request and nothing
    else: every other field of the stored request, its identity included,
    reads back with the value it had. *)
Theorem approval_keeps_other_fields d payload oid doc :
  decided payload ->
  ObjectId (Approval.request_id payload) = Some oid ->
  find_by_id "programrequest" oid d = Some doc ->
  exists r d' doc',
    POST_approvals payload (Some d) = (inr r, Some d') /\
    find_by_id "programrequest" oid d' = Some doc' /\
    doc' !! "status" = Some (VStr (Approval.decision payload)) /\
    forall key, key <> "status" -> doc' !! key = doc !! key.
Proof.
  intros Hdec Hoid Hdoc.
  destruct (approve_existing d payload oid doc Hdec Hoid Hdoc) as [Hrun _].
  eexists _, _, _. split; [exact Hrun|]. split; [|split].
  - by apply approved_store_request.
  - rewrite target_status_decided by done.
    apply lookup_union_Some_l, lookup_singleton_eq.
  - intros key Hne. apply lookup_union_r. by apply lookup_singleton_ne.
Qed.

Lemma approval_keeps_other_fields_witness :
  exists r d' doc',
    POST_approvals (decision_on R1_id "approved") (Some store_submitted)
      = (inr r, Some d') /\
    find_by_id "programrequest" 0 d' = Some doc' /\
    doc' !! "status" = Some (VStr "approved") /\
    forall key, key <> "status" -> doc' !! key = R1_stored !! key.
Proof.
  apply (approval_keeps_other_fields store_submitted
           (decision_on R1_id "approved") 0 R1_stored).
  - left; reflexivity.
  - vm_compute; reflexivity.
  - vm_compute; reflexivity.
Defined.

(** Two approvals in a row on the same existing request both succeed; the
    status ends as the second decision and the approval collection has
    gained both records, in the order of the calls. *)
Theorem last_decision_wins d p1 p2 oid doc :
  decided p1 -> decided p2 ->
  Approval.request_id p2 = Approval.request_id p1 ->
  ObjectId (Approval.request_id p1) = Some oid ->
  find_by_id "programrequest" oid d = Some doc ->
  exists r1 d1 r2 d2,
    POST_approvals p1 (Some d) = (inr r1, Some d1) /\
    POST_approvals p2 (Some d1) = (inr r2, Some d2) /\
    request_status d2 (Approval.request_id p1)
      = Some (VStr (Approval.decision p2)) /\
    collection d2 "approval" =
      (collection d "approval"
         ++ [<["_id" := VObjectId (next_oid d)]> (approvals p1);
             <["_id" := VObjectId (next_oid d1)]> (approvals p2)])%list.
Proof.
  intros Hdec1 Hdec2 Hrid Hoid Hdoc.
  destruct (approve_existing d p1 oid doc Hdec1 Hoid Hdoc) as [Hrun1 _].
  pose proof (approved_store_request p1 oid d doc Hdoc) as Hdoc1.
  assert (ObjectId (Approval.request_id p2) = Some oid) as Hoid2
    by (by rewrite Hrid).
  destruct (approve_existing _ p2 oid _ Hdec2 Hoid2 Hdoc1) as [Hrun2 Hst2].
  eexists _, _, _, _. split; [exact Hrun1|]. split; [exact Hrun2|].
  split; [by rewrite <- Hrid|].
  rewrite !approved_store_approvals. by rewrite <- app_assoc.
Qed.

Lemma last_decision_wins_witness :
  exists r1 d1 r2 d2,
    POST_approvals (decision_on R1_id "rejected") (Some store_submitted)
      = (inr r1, Some d1) /\
    POST_approvals (decision_on R1_id "approved") (Some d1)
      = (inr r2, Some d2) /\
    request_status d2 R1_id = Some (VStr "approved") /\
    collection d2 "approval" =
      (collection store_submitted "approval"
         ++ [<["_id" := VObjectId (next_oid store_submitted)]>
               (approvals (decision_on R1_id "rejected"));
             <["_id" := VObjectId (next_oid d1)]>
               (approvals (decision_on R1_id "approved"))])%list.
Proof.
  apply (last_decision_wins store_submitted
           (decision_on R1_id "rejected") (decision_on R1_id "approved")
           0 R1_stored).
  - right; reflexivity.
  - left; reflexivity.
  - reflexivity.
  - vm_compute; reflexivity.
  - vm_compute; reflexivity.
Defined.

End approval_more.

(** ** What the models refuse *)

Section validation_more.

Implicit Types (d : Database) (h : option Database).

Lemma literal_In (allowed : list string) (s : string) :
  In s allowed -> literal allowed s = Some s.
Proof.
  intros Hin. unfold literal.
  assert (existsb (String.eqb s) allowed = true) as ->; [|done].
  apply existsb_exists. exists s. split; [done|]. apply String.eqb_refl.
Qed.

Lemma literal_not_In (allowed : list string) (s : string) :
  ~ In s allowed -> literal allowed s = None.
Proof.
  intros Hnot. unfold literal.
  destruct (existsb (String.eqb s) allowed) eqn:E; [|done].
  apply existsb_exists in E as (x & Hx & Heq).
  apply String.eqb_eq in Heq. by subst x.
Qed.

Lemma SFcompare_antisym (a b : spec_float) :
  SFcompare b a = option_map CompOpp (SFcompare a b).
Proof.
  destruct a as [[]|[]| |[] m1 e1], b as [[]|[]| |[] m2 e2];
    simpl; try reflexivity; f_equal.
  - rewrite (Z.compare_antisym e1 e2).
    destruct (e1 ?= e2)%Z; simpl; try reflexivity.
    f_equal. symmetry. apply (Pos.compare_cont_antisym m1 m2 Eq).
  - rewrite (Z.compare_antisym e1 e2).
    destruct (e1 ?= e2)%Z; simpl; try reflexivity.
    symmetry. apply (Pos.compare_cont_antisym m1 m2 Eq).
Qed.

(** On floats, [x < y] excludes [y <= x]. *)
Lemma float_lt_not_ge (x y : float) :
  PrimFloat.ltb x y = true -> PrimFloat.leb y x = false.
Proof.
  rewrite ltb_spec, leb_spec. unfold SFltb, SFleb.
  rewrite (SFcompare_antisym (Prim2SF x) (Prim2SF y)).
  destruct (SFcompare (Prim2SF x) (Prim2SF y)) as [[]|]; simpl; congruence.
Qed.

(** An evaluation whose score is below 0 or above 100 is refused by the
    model with a validation error; the handler does not run and the store
    handle is returned as it was. *)
Theorem score_out_of_range_rejected h (ev : Evaluation.t) :
  PrimFloat.ltb (Evaluation.score ev) 0%float = true \/
  PrimFloat.ltb 100%float (Evaluation.score ev) = true ->
  POST_evaluations ev h = (inl RequestValidationError, h).
Proof.
  intros Hout. unfold POST_evaluations, endpoint, Evaluation.validate.
  destruct Hout as [Hlow | Hhigh].
  - by rewrite (float_lt_not_ge _ _ Hlow).
  - rewrite (float_lt_not_ge _ _ Hhigh). by rewrite andb_false_r.
Qed.

Lemma score_out_of_range_rejected_witness :
  POST_evaluations
    (Evaluation.mk (Some R1_id) None 100.5%float None None)
    (Some store_scheduled)
  = (inl RequestValidationError, Some store_scheduled).
Proof.
  apply (score_out_of_range_rejected (Some store_scheduled)
           (Evaluation.mk (Some R1_id) None 100.5%float None None)).
  right. vm_compute; reflexivity.
Defined.

(** A report with a negative attendee count is refused by the model with a
    validation error and nothing is stored. *)
Theorem negative_attendees_rejected h (rep : Report.t) (n : Z) :
  Report.attendees_count rep = Some n ->
  (n < 0)%Z ->
  POST_reports rep h = (inl RequestValidationError, h).
Proof.
  intros Hn Hneg. unfold POST_reports, endpoint, Report.validate.
  rewrite Hn. destruct (Z.leb_spec 0 n); [lia|done].
Qed.

Lemma negative_attendees_rejected_witness :
  POST_reports
    (Report.mk (Some R1_id) None None "Rained off" (Some (-1)%Z) [])
    (Some store_scheduled)
  = (inl RequestValidationError, Some store_scheduled).
Proof.
  apply (negative_attendees_rejected (Some store_scheduled)
           (Report.mk (Some R1_id) None None "Rained off" (Some (-1)%Z) [])
           (-1)%Z).
  - reflexivity.
  - lia.
Defined.

(** A request body whose program type is not one of the three listed, or
    that supplies a status that is not one of the four listed, is refused
    with a validation error and nothing is stored. *)
Theorem unknown_type_or_status_rejected h (b : ProgramRequest.body) :
  ~ In (ProgramRequest.program_type b) ProgramRequest.program_types \/
  (exists s, ProgramRequest.status b = Some s /\
             ~ In s ProgramRequest.statuses) ->
  POST_program_requests b h = (inl RequestValidationError, h).
Proof.
  intros Hbad.
  unfold POST_program_requests, endpoint, ProgramRequest.validate.
  destruct Hbad as [Hty | (s & Hs & Hst)].
  - by rewrite (literal_not_In _ _ Hty).
  - destruct (literal _ (ProgramRequest.program_type b)); simpl; [|done].
    destruct (mapM _ _); simpl; [|done].
    rewrite Hs. simpl. by rewrite (literal_not_In _ _ Hst).
Qed.

Lemma unknown_type_or_status_rejected_witness :
  POST_program_requests
    (ProgramRequest.mk "RU-01" "Bake sale" "fundraising"
       None None None [] None None)
    (Some empty_database)
  = (inl RequestValidationError, Some empty_database).
Proof.
  apply (unknown_type_or_status_rejected (Some empty_database)
           (ProgramRequest.mk "RU-01" "Bake sale" "fundraising"
              None None None [] None None)).
  left. vm_compute. intuition discriminate.
Defined.

Lemma Event_validate_status (b : Event.body) (e : Event.t) :
  Event.validate b = Some e ->
  Event.status e = default "scheduled" (Event.status b).
Proof.
  unfold Event.validate. intros H.
  destruct (literal_default _ _ _) as [st|] eqn:E; simpl in H; [|done].
  injection H as <-. simpl. unfold literal_default in E.
  destruct (Event.status b) as [given|]; simpl.
  - by apply literal_inv in E.
  - congruence.
Qed.

(** An event is stored with the status its body supplies, and with
    [scheduled] when the body supplies none. *)
Theorem event_status_default_or_supplied d (b : Event.body) (e : Event.t) :
  Event.validate b = Some e ->
  exists r d' doc,
    POST_events b (Some d) = (inr r, Some d') /\
    collection d' "event" = (collection d "event" ++ [doc])%list /\
    doc !! "status" = Some (VStr (default "scheduled" (Event.status b))).
Proof.
  intros Hv. pose proof (Event_validate_status _ _ Hv) as Hst.
  eexists _, _, _. split; [|split].
  - by apply POST_events_run.
  - apply collection_append_document.
  - rewrite <- Hst. reflexivity.
Qed.

Lemma event_status_default_or_supplied_witness :
  exists r d' doc,
    POST_events (event_for None 10 20) (Some store_approved)
      = (inr r, Some d') /\
    collection d' "event"
      = (collection store_approved "event" ++ [doc])%list /\
    doc !! "status" = Some (VStr "scheduled").
Proof.
  apply (event_status_default_or_supplied store_approved
           (event_for None 10 20) (event_validated None 10 20)).
  vm_compute; reflexivity.
Defined.

(** A role whose name is not one of the nine listed is refused with a
    validation error and nothing is stored. *)
Theorem unknown_role_rejected (h : option Database) (b : Role.t) :
  ~ In (Role.name b) Role.names ->
  POST_roles b h = (inl RequestValidationError, h).
Proof.
  intros Hnot. unfold POST_roles, endpoint, Role.validate.
  by rewrite (literal_not_In _ _ Hnot).
Qed.

Lemma unknown_role_rejected_witness :
  POST_roles (Role.mk "janitor" None) (Some empty_database)
    = (inl RequestValidationError, Some empty_database).
Proof.
  apply (unknown_role_rejected (Some empty_database)
           (Role.mk "janitor" None)).
  vm_compute. intuition discriminate.
Defined.

Lemma Resource_validate_inv (b : Resource.body) (r : Resource.t) :
  Resource.validate b = Some r ->
  Resource.capacity r = Resource.capacity b /\
  Resource.availability_status r
    = default "available" (Resource.availability_status b).
Proof.
  unfold Resource.validate. intros H.
  destruct (literal _ (Resource.type b)); simpl in H; [|done].
  destruct (literal_default _ _ _) as [st|] eqn:E; simpl in H; [|done].
  injection H as <-. simpl. split; [done|].
  unfold literal_default in E.
  destruct (Resource.availability_status b) as [given|]; simpl.
  - by apply literal_inv in E.
  - congruence.
Qed.

Lemma int64_outside (n : Z) :
  (n < - 2 ^ 63 \/ 2 ^ 63 <= n)%Z -> int64 n = false.
Proof.
  intros Hout. unfold int64. apply andb_false_iff.
  destruct Hout; [left; by apply Z.leb_gt | right; by apply Z.ltb_ge].
Qed.




(** A capacity that does not fit an eight-byte integer passes the model but
    cannot be encoded for the store: the call fails as a server error and
    nothing is stored. *)
Theorem resource_capacity_overflow d (b : Resource.body) (r : Resource.t)
  (c : Z) :
  Resource.validate b = Some r ->
  Resource.capacity b = Some c ->
  (c < - 2 ^ 63 \/ 2 ^ 63 <= c)%Z ->
  POST_resources b (Some d) = (inl OverflowError, Some d) /\
  status_code_of OverflowError = 500%Z.
Proof.
  intros Hv Hc Hout. split; [|done].
  destruct (Resource_validate_inv _ _ Hv) as [Hrc _].
  unfold POST_resources, endpoint. rewrite Hv.
  unfold create_resource, mbind, App_bind.
  rewrite create_document_overflow; [done|].
  apply (bson_encode_overflow _ "capacity" c); [|by apply int64_outside].
  change (Resource.model_dump r !! "capacity")
    with (Some (of_optional VInt (Resource.capacity r))).
  by rewrite Hrc, Hc.
Qed.

Lemma resource_capacity_overflow_witness :
  POST_resources
    (Resource.mk "Stadium" "venue" None (Some (2 ^ 63)%Z) None)
    (Some empty_database) = (inl OverflowError, Some empty_database) /\
  status_code_of OverflowError = 500%Z.
Proof.
  apply (resource_capacity_overflow empty_database
           (Resource.mk "Stadium" "venue" None (Some (2 ^ 63)%Z) None)
           (Resource.mk "Stadium" "venue" None (Some (2 ^ 63)%Z) "available")
           (2 ^ 63)%Z).
  - vm_compute; reflexivity.
  - reflexivity.
  - right. lia.
Defined.

(** An attendee count of 2^63 or more passes the model but cannot be
    encoded for the store: the report call fails as a server error and
    nothing is stored. *)
Theorem report_count_overflow d (rep p : Report.t) (n : Z) :
  Report.validate rep = Some p ->
  Report.attendees_count rep = Some n ->
  (2 ^ 63 <= n)%Z ->
  POST_reports rep (Some d) = (inl OverflowError, Some d) /\
  status_code_of OverflowError = 500%Z.
Proof.
  intros Hv Hn Hbig. split; [|done].
  unfold POST_reports, endpoint. rewrite Hv.
  assert (p = rep) as ->.
  { unfold Report.validate in Hv. rewrite Hn in Hv.
    destruct (0 <=? n)%Z; congruence. }
  unfold submit_report, mbind, App_bind.
  rewrite create_document_overflow; [done|].
  apply (bson_encode_overflow _ "attendees_count" n);
    [|apply int64_outside; by right].
  change (Report.model_dump rep !! "attendees_count")
    with (Some (of_optional VInt (Report.attendees_count rep))).
  by rewrite Hn.
Qed.

Lemma report_count_overflow_witness :
  POST_reports
    (Report.mk None None None "Everyone came" (Some (2 ^ 63)%Z) [])
    (Some store_scheduled) = (inl OverflowError, Some store_scheduled) /\
  status_code_of OverflowError = 500%Z.
Proof.
  apply (report_count_overflow store_scheduled
           (Report.mk None None None "Everyone came" (Some (2 ^ 63)%Z) [])
           (Report.mk None None None "Everyone came" (Some (2 ^ 63)%Z) [])
           (2 ^ 63)%Z).
  - vm_compute; reflexivity.
  - reflexivity.
  - lia.
Defined.

End validation_more.

(** ** What the list operations return *)

Section list_more.

Implicit Types (d : Database) (q doc : Document) (o : option string).

Lemma value_matches_str (stored : option Value) (s : string) :
  value_matches stored (VStr s) = true <-> stored = Some (VStr s).
Proof.
  unfold value_matches. destruct stored as [[]|]; try (split; congruence).
  rewrite String.eqb_eq. split; congruence.
Qed.

Lemma matches_insert_str q doc (key s : string) :
  q !! key = None ->
  matches (<[key := VStr s]> q) doc = true <->
  doc !! key = Some (VStr s) /\ matches q doc = true.
Proof.
  intros Hfree. unfold matches. rewrite !bool_decide_eq_true.
  rewrite map_Forall_insert by done. by rewrite value_matches_str.
Qed.

Lemma matches_set_if q doc (key : string) o :
  q !! key = None ->
  matches (set_if key o q) doc = true <->
  asks key o doc /\ matches q doc = true.
Proof.
  intros Hfree. unfold set_if, truthy, asks.
  destruct o as [s|].
  - destruct (String.eqb_spec s "") as [-> | Hne]; simpl.
    + split; [|tauto]. intros Hm. split; [|done].
      intros s' [= <-] Hs'. by destruct Hs'.
    + rewrite matches_insert_str by done. split.
      * intros [Hk Hm]. split; [|done]. by intros s' [= <-] _.
      * intros [Hk Hm]. split; [|done]. by apply Hk.
  - split; [|tauto]. intros Hm. split; [|done]. intros s' Hs'. discriminate.
Qed.

Lemma set_if_lookup_ne (key key' : string) o q :
  key <> key' -> set_if key o q !! key' = q !! key'.
Proof.
  intros Hne. unfold set_if. destruct o as [s|]; [|done].
  destruct (truthy (Some s)); [|done]. by apply lookup_insert_ne.
Qed.

(** Two guarded filters: the documents returned are those of the collection,
    in store order, that meet what both parameters ask. *)
Lemma get_documents_two (name k1 k2 : string) o1 o2 d :
  k1 <> k2 ->
  exists keep : Document -> bool,
    get_documents name (set_if k2 o2 (set_if k1 o1 ∅)) (Some d)
      = (inr (List.filter keep (collection d name)), Some d) /\
    forall doc, keep doc = true <-> asks k1 o1 doc /\ asks k2 o2 doc.
Proof.
  intros Hne. exists (matches (set_if k2 o2 (set_if k1 o1 ∅))).
  split; [reflexivity|]. intros doc.
  rewrite matches_set_if
    by (rewrite set_if_lookup_ne by done; apply lookup_empty).
  rewrite matches_set_if by apply lookup_empty.
  rewrite matches_empty. tauto.
Qed.

Lemma get_documents_one (name k : string) o d :
  exists keep : Document -> bool,
    get_documents name (set_if k o ∅) (Some d)
      = (inr (List.filter keep (collection d name)), Some d) /\
    forall doc, keep doc = true <-> asks k o doc.
Proof.
  exists (matches (set_if k o ∅)). split; [reflexivity|]. intros doc.
  rewrite matches_set_if by apply lookup_empty.
  rewrite matches_empty. tauto.
Qed.

(** Each of the four two-filter list operations returns, in store order,
    exactly the documents of its collection whose fields equal every
    non-empty filter given; it leaves the store as it is. *)
Theorem list_filters_exact d (a b : option string) :
  (exists keep : Document -> bool,
     list_program_requests a b (Some d)
       = (inr (List.filter keep (collection d "programrequest")), Some d) /\
     forall doc, keep doc = true <->
                 asks "status" a doc /\ asks "branch_code" b doc) /\
  (exists keep : Document -> bool,
     list_events a b (Some d)
       = (inr (List.filter keep (collection d "event")), Some d) /\
     forall doc, keep doc = true <->
                 asks "branch_code" a doc /\ asks "status" b doc) /\
  (exists keep : Document -> bool,
     list_resources a b (Some d)
       = (inr (List.filter keep (collection d "resource")), Some d) /\
     forall doc, keep doc = true <->
                 asks "branch_code" a doc /\ asks "type" b doc) /\
  (exists keep : Document -> bool,
     list_notifications a b (Some d)
       = (inr (List.filter keep (collection d "notification")), Some d) /\
     forall doc, keep doc = true <->
                 asks "user_email" a doc /\ asks "branch_code" b doc).
Proof.
  repeat split.
  - apply (get_documents_two "programrequest" "status" "branch_code").
    discriminate.
  - apply (get_documents_two "event" "branch_code" "status"). discriminate.
  - apply (get_documents_two "resource" "branch_code" "type"). discriminate.
  - apply (get_documents_two "notification" "user_email" "branch_code").
    discriminate.
Qed.

(** The three single-filter list operations, for users, reports and
    evaluations: an empty string is the same as no filter, and the result
    is, in store order, the documents of the collection whose field equals
    the non-empty filter given. *)
Theorem single_filter_lists d (h : option Database) o :
  (list_users (Some "") h = list_users None h /\
   exists keep : Document -> bool,
     list_users o (Some d)
       = (inr (List.filter keep (collection d "user")), Some d) /\
     forall doc, keep doc = true <-> asks "branch_code" o doc) /\
  (list_reports (Some "") h = list_reports None h /\
   exists keep : Document -> bool,
     list_reports o (Some d)
       = (inr (List.filter keep (collection d "report")), Some d) /\
     forall doc, keep doc = true <-> asks "request_id" o doc) /\
  (list_evaluations (Some "") h = list_evaluations None h /\
   exists keep : Document -> bool,
     list_evaluations o (Some d)
       = (inr (List.filter keep (collection d "evaluation")), Some d) /\
     forall doc, keep doc = true <-> asks "request_id" o doc).
Proof.
  repeat split.
  - apply (get_documents_one "user" "branch_code").
  - apply (get_documents_one "report" "request_id").
  - apply (get_documents_one "evaluation" "request_id").
Qed.

Lemma asks_own (key s : string) doc :
  doc !! key = Some (VStr s) -> asks key (Some s) doc.
Proof. intros Hk s' [= <-] _. exact Hk. Qed.

(** A request that has just been submitted is the last one of the
    unfiltered list, and it is among the requests listed for its own status
    and branch code. *)
Theorem submitted_request_listed d (b : ProgramRequest.body)
  (p : ProgramRequest.t) :
  ProgramRequest.validate b = Some p ->
  exists r d' doc docs,
    POST_program_requests b (Some d) = (inr r, Some d') /\
    list_program_requests None None (Some d')
      = (inr (collection d "programrequest" ++ [doc])%list, Some d') /\
    list_program_requests (Some (ProgramRequest.status p))
      (Some (ProgramRequest.branch_code b)) (Some d')
      = (inr docs, Some d') /\
    In doc docs.
Proof.
  intros Hv.
  set (doc := <["_id" := VObjectId (next_oid d)]>
                (bson_stored <$> ProgramRequest.model_dump p)).
  set (d' := (append_document "programrequest"
                (bson_stored <$> ProgramRequest.model_dump p) d).2).
  assert (collection d' "programrequest"
            = (collection d "programrequest" ++ [doc])%list) as Hcoll
    by apply collection_append_document.
  assert (ProgramRequest.branch_code p = ProgramRequest.branch_code b) as Hbc.
  { unfold ProgramRequest.validate in Hv.
    destruct (literal _ _); simpl in Hv; [|done].
    destruct (mapM _ _); simpl in Hv; [|done].
    destruct (literal_default _ _ _); simpl in Hv; [|done].
    by injection Hv as <-. }
  destruct (get_documents_two "programrequest" "status" "branch_code"
              (Some (ProgramRequest.status p))
              (Some (ProgramRequest.branch_code b)) d')
    as (keep & Hrun & Hkeep); [discriminate|].
  exists {[ "id" := VStr (str_ObjectId (next_oid d));
            "status" := VStr (ProgramRequest.status p) ]},
         d', doc, (List.filter keep (collection d' "programrequest")).
  split; [|split; [|split]].
  - unfold POST_program_requests, endpoint. rewrite Hv.
    apply submit_program_request_run.
  - rewrite <- Hcoll. apply (get_documents_all "programrequest").
  - exact Hrun.
  - apply filter_In. split.
    + rewrite Hcoll. apply in_or_app. right. by left.
    + apply Hkeep. split; apply asks_own.
      * reflexivity.
      * rewrite <- Hbc. reflexivity.
Qed.

Lemma submitted_request_listed_witness :
  exists r d' doc docs,
    POST_program_requests R1 (Some store_scheduled) = (inr r, Some d') /\
    list_program_requests None None (Some d')
      = (inr (collection store_scheduled "programrequest" ++ [doc])%list,
         Some d') /\
    list_program_requests (Some (ProgramRequest.status R1_validated))
      (Some (ProgramRequest.branch_code R1)) (Some d')
      = (inr docs, Some d') /\
    In doc docs.
Proof.
  apply (submitted_request_listed store_scheduled R1 R1_validated).
  vm_compute; reflexivity.
Defined.

End list_more.

(** ** Identities handed out and taken back *)

Section identities.

Implicit Types (d : Database) (n acc : N) (s : string).

Lemma hex_digit_char (v : N) : v < 16 -> hex_digit (hex_char v) = Some v.
Proof.
  intros Hv.
  assert (exists k : nat, (k < 16)%nat /\ v = N.of_nat k) as (k & Hk & ->).
  { exists (N.to_nat v). split; [lia|]. by rewrite N2Nat.id. }
  do 16 (destruct k as [|k]; [reflexivity|]). lia.
Qed.

Lemma hex_string_length (k : nat) n s :
  String.length (hex_string k n s) = (k + String.length s)%nat.
Proof.
  revert n s. induction k as [|k IH]; intros n s; simpl; [done|].
  rewrite IH. simpl. lia.
Qed.

Lemma hex_value_string (k : nat) n acc s :
  hex_value acc (hex_string k n s)
  = hex_value (acc * 16 ^ N.of_nat k + n mod 16 ^ N.of_nat k) s.
Proof.
  revert n acc s. induction k as [|k IH]; intros n acc s.
  - simpl. rewrite N.mod_1_r. f_equal. lia.
  - cbn [hex_string]. rewrite IH. cbn [hex_value].
    rewrite hex_digit_char by (apply N.mod_lt; lia).
    f_equal. rewrite Nat2N.inj_succ, N.pow_succ_r'.
    rewrite (N.Div0.mod_mul_r n 16 (16 ^ N.of_nat k)). lia.
Qed.

(** [ObjectId(str(oid)) == oid] for every twelve-byte identity. *)
Lemma ObjectId_str (n : N) :
  n < 2 ^ 96 -> ObjectId (str_ObjectId n) = Some n.
Proof.
  intros Hn. unfold ObjectId, str_ObjectId.
  rewrite hex_string_length. simpl String.length.
  change (Nat.eqb (24 + 0) 24) with true. cbv iota.
  rewrite hex_value_string. simpl hex_value.
  f_equal. change (16 ^ N.of_nat 24) with (2 ^ 96).
  rewrite N.mod_small by done. lia.
Qed.

Lemma find_by_id_new (name : string) (doc : Document) d :
  find_by_id name (next_oid d) d = None ->
  find_by_id name (next_oid d) (append_document name doc d).2
  = Some (<["_id" := VObjectId (next_oid d)]> doc).
Proof.
  unfold find_by_id, find. intros Hnone.
  rewrite collection_append_document, List.filter_app.
  destruct (List.filter _ (collection d name)); [|discriminate].
  simpl.
  assert (matches {["_id" := VObjectId (next_oid d)]}
            (<["_id" := VObjectId (next_oid d)]> doc) = true) as ->; [|done].
  apply matches_id, lookup_insert_eq.
Qed.

(** Submitting a request and then recording a decision under the identity
    the submission returned: both calls succeed and the status of that
    request reads back as the decision, whatever status it was submitted
    with.  The store is any one whose next identity is a twelve-byte one
    not yet in use among the requests. *)
Theorem submit_then_approve d (b : ProgramRequest.body)
  (p : ProgramRequest.t) (approved_by decision : string)
  (notes : option string) :
  ProgramRequest.validate b = Some p ->
  decision = "approved" \/ decision = "rejected" ->
  next_oid d < 2 ^ 96 ->
  find_by_id "programrequest" (next_oid d) d = None ->
  exists rid d1 r2 d2,
    POST_program_requests b (Some d)
      = (inr {[ "id" := VStr rid;
                "status" := VStr (ProgramRequest.status p) ]}, Some d1) /\
    POST_approvals (Approval.mk rid approved_by decision notes) (Some d1)
      = (inr r2, Some d2) /\
    request_status d2 rid = Some (VStr decision).
Proof.
  intros Hv Hdec Hbound Hfree.
  set (rid := str_ObjectId (next_oid d)).
  set (payload := Approval.mk rid approved_by decision notes).
  pose proof (ObjectId_str _ Hbound) as Hoid.
  pose proof (find_by_id_new "programrequest"
                (bson_stored <$> ProgramRequest.model_dump p) d Hfree)
    as Hdoc.
  destruct (approve_existing _ payload (next_oid d) _ Hdec Hoid Hdoc)
    as [Hrun Hst].
  eexists rid, _, _, _. split; [|split].
  - unfold POST_program_requests, endpoint. rewrite Hv.
    apply submit_program_request_run.
  - exact Hrun.
  - exact Hst.
Qed.

Lemma submit_then_approve_witness :
  exists rid d1 r2 d2,
    POST_program_requests R1_preapproved (Some store_scheduled)
      = (inr {[ "id" := VStr rid;
                "status" := VStr (ProgramRequest.status
                                    (ProgramRequest.mk "RU-01"
                                       "Campus clean-up" "student_activity"
                                       None None None
                                       [BudgetItem.mk "venue" 100%float]
                                       None "approved")) ]}, Some d1) /\
    POST_approvals (Approval.mk rid "dean@example.org" "rejected" None)
      (Some d1) = (inr r2, Some d2) /\
    request_status d2 rid = Some (VStr "rejected").
Proof.
  apply (submit_then_approve store_scheduled R1_preapproved
           (ProgramRequest.mk "RU-01" "Campus clean-up" "student_activity"
              None None None [BudgetItem.mk "venue" 100%float] None
              "approved")
           "dean@example.org" "rejected" None).
  - vm_compute; reflexivity.
  - right; reflexivity.
  - vm_compute; reflexivity.
  - vm_compute; reflexivity.
Defined.

Lemma lower_ascii_idempotent (c : ascii) :
  lower_ascii (lower_ascii c) = lower_ascii c.
Proof. by destruct c as [[] [] [] [] [] [] [] []]. Qed.

(** On ASCII names [coll] applied twice is [coll] applied once, and it
    keeps the length of the name: the lowered name is its own collection
    name. *)
Theorem coll_idempotent (name : string) :
  ascii_name name ->
  coll (coll name) = coll name /\
  String.length (coll name) = String.length name.
Proof.
  intros _. unfold coll. induction name as [|c name [IH1 IH2]]; simpl; [done|].
  by rewrite lower_ascii_idempotent, IH1, IH2.
Qed.

Lemma coll_idempotent_witness :
  coll (coll "ProgramRequest") = coll "ProgramRequest" /\
  String.length (coll "ProgramRequest") = String.length "ProgramRequest".
Proof.
  apply (coll_idempotent "ProgramRequest").
  unfold ascii_name. simpl. repeat constructor.
Defined.

End identities.
